(** * chessbot.py: the tabular Q-learning engine of the chess bot

    A shallow embedding of [src/chessbot.py] (class [ChessAI] and the
    reward mapping of [play_game]) and the properties its specification
    states about it.

    - Python's [float] is IEEE-754 binary64; it is modelled by the
      Standard Library's [spec_float] with precision 53 and maximal
      exponent 1024, whose operations round to nearest-even as the
      hardware does.
    - A row of the value table ([self.q_table[state]]) is a Python [dict]:
      insertion ordered, keys unique.  Its order decides the greedy
      tie-break, so a row is an association list with the dict operations
      written out.
    - The value table itself ([self.q_table]) is only ever looked up and
      stored into by key; it is a [gmap] from fingerprints to rows.
    - Exceptions are values of [exn]; a method that can raise returns the
      object it has mutated so far together with a [result]. *)

From Stdlib Require Import ZArith Bool List String.
From Stdlib Require Import SpecFloat PrimFloat FloatOps.
From stdpp Require Import base option list strings gmap fin_maps.

Open Scope string_scope.
Open Scope list_scope.

(** ** Floating point *)

Module PyFloat.

Definition t := spec_float.

Definition prec : Z := 53.
Definition emax : Z := 1024.

Definition add : t -> t -> t := SFadd prec emax.
Definition sub : t -> t -> t := SFsub prec emax.
Definition mul : t -> t -> t := SFmul prec emax.

(** [x < y], [x > y], [x <= y] of Python: false as soon as one side is
    a NaN. *)
Definition ltb : t -> t -> bool := SFltb.
Definition gtb (x y : t) : bool := SFltb y x.
Definition leb : t -> t -> bool := SFleb.

(** The literals of the source, each the binary64 number nearest to the
    decimal the program text writes. *)
#[local] Set Warnings "-inexact-float".
Definition zero : t := S754_zero false.
Definition neg_zero : t := S754_zero true.
Definition one : t := Eval vm_compute in Prim2SF 1.0%float.
Definition minus_one : t := Eval vm_compute in Prim2SF (-1.0)%float.
Definition lit_0_5 : t := Eval vm_compute in Prim2SF 0.5%float.
Definition lit_0_9 : t := Eval vm_compute in Prim2SF 0.9%float.
Definition lit_0_2 : t := Eval vm_compute in Prim2SF 0.2%float.
Definition lit_0_1 : t := Eval vm_compute in Prim2SF 0.1%float.
Definition lit_0_3 : t := Eval vm_compute in Prim2SF 0.3%float.
Definition lit_0_4 : t := Eval vm_compute in Prim2SF 0.4%float.
Definition lit_minus_0_2 : t := Eval vm_compute in Prim2SF (-0.2)%float.

End PyFloat.

Abbreviation pyfloat := PyFloat.t.

(** ** Exceptions and results *)

Inductive exn : Type :=
  | KeyError (key : string)      (* [d[k]] on a missing key *)
  | IndexError                   (* [random.choice] of an empty list *)
  | ValueError                   (* [max] of an empty iterable *)
  | TypeError                    (* ordering [None] against a float *)
  | OSError (msg : string)       (* [open], write, read *)
  | PickleError (msg : string).  (* [pickle.dump], [pickle.load] *)

Inductive result (A : Type) : Type :=
  | Ok (a : A)
  | Raise (e : exn).

Arguments Ok {A} a.
Arguments Raise {A} e.

#[export] Instance result_ret : MRet result := fun _ a => Ok a.
#[export] Instance result_bind : MBind result := fun _ _ f r =>
  match r with
  | Ok a => f a
  | Raise e => Raise e
  end.

(** ** Numbers

    [play_game] passes [learn] either a float or the int [0]; [learn] uses
    its argument in float arithmetic only, where Python converts an int
    operand to the float of the same value. *)

Inductive number : Type :=
  | Int (n : Z)
  | Float (x : pyfloat).

Definition to_float (n : number) : pyfloat :=
  match n with
  | Int z => binary_normalize PyFloat.prec PyFloat.emax z 0 false
  | Float x => x
  end.

(** ** Rows: Python dicts from action identifiers to values *)

Module Row.

Definition t := list (string * pyfloat).

(** [list(d)], the keys in insertion order. *)
Definition keys (d : t) : list string := map fst d.

(** [d.get(k)]: [None] when the key is missing. *)
Fixpoint get (d : t) (k : string) : option pyfloat :=
  match d with
  | [] => None
  | (k', v) :: d' => if String.eqb k' k then Some v else get d' k
  end.

(** [d[k]]: raises [KeyError] when the key is missing. *)
Definition getitem (d : t) (k : string) : result pyfloat :=
  match get d k with
  | Some v => Ok v
  | None => Raise (KeyError k)
  end.

(** [d[k] = v]: an existing key keeps its place, a new one goes last. *)
Fixpoint setitem (d : t) (k : string) (v : pyfloat) : t :=
  match d with
  | [] => [(k, v)]
  | (k', v') :: d' =>
      if String.eqb k' k then (k', v) :: d' else (k', v') :: setitem d' k v
  end.

(** [{key(x): v for x in xs}]: the comprehension stores item by item. *)
Definition of_keys (ks : list string) (v : pyfloat) : t :=
  fold_left (fun d k => setitem d k v) ks [].

End Row.

Abbreviation row := Row.t.

(** ** The rules engine, as far as the learner sees it

    [chess.Move] is used through [move.uci()] and [chess.Move.from_uci]
    only, which convert between a move and its identifier; a move is
    modelled by the identifier it carries.  A board is used through
    [board.fen()] and [list(board.legal_moves)]. *)

Record Move : Type := from_uci { uci : string }.

Record Board : Type := {
  fen : string;
  legal_moves : list Move;
}.

Inductive piece_type : Type := PAWN | KNIGHT | BISHOP | ROOK | QUEEN | KING.

(** ** The random source

    [random.random()] returns a float of [[0, 1)] and [random.choice(seq)]
    returns [seq[i]] for an index [i] below [len(seq)] drawn by the
    generator; one call of [choose_move] consumes at most one of each. *)

Record Random : Type := {
  random : pyfloat;
  randbelow : nat -> nat;
}.

Definition choice {A} (rnd : Random) (seq : list A) : result A :=
  match seq with
  | [] => Raise IndexError
  | x :: _ => Ok (nth (randbelow rnd (length seq) mod length seq) seq x)
  end.

(** ** The learner *)

Record ChessAI : Type := {
  filename : string;
  q_table : gmap string row;
  learning_rate : pyfloat;
  discount_factor : pyfloat;
  epsilon : pyfloat;
  piece_values : piece_type -> Z;
}.

Definition set_q_table (q : gmap string row) (self : ChessAI) : ChessAI :=
  {| filename := filename self;
     q_table := q;
     learning_rate := learning_rate self;
     discount_factor := discount_factor self;
     epsilon := epsilon self;
     piece_values := piece_values self |}.

(** [get_state]. *)
Definition get_state (board : Board) : string := fen board.

(** [max(d, key=d.get)]: the iteration keeps the first key and replaces it
    only by a key whose value compares strictly greater.  [d.get] yields
    [None] for a key that is not in [d], and ordering [None] raises. *)
Definition py_gt (x y : option pyfloat) : result bool :=
  match x, y with
  | Some a, Some b => Ok (PyFloat.gtb a b)
  | _, _ => Raise TypeError
  end.

Fixpoint max_loop (key : string -> option pyfloat)
    (best : string) (best_val : option pyfloat) (ks : list string)
  : result string :=
  match ks with
  | [] => Ok best
  | k :: ks' =>
      match py_gt (key k) best_val with
      | Raise e => Raise e
      | Ok true => max_loop key k (key k) ks'
      | Ok false => max_loop key best best_val ks'
      end
  end.

Definition max_by_get (d : row) : result string :=
  match Row.keys d with
  | [] => Raise ValueError
  | k :: ks => max_loop (Row.get d) k (Row.get d k) ks
  end.

(** [choose_move], lines 45-46: the row of a fingerprint that is not in
    the table yet. *)
Definition init_row (self : ChessAI) (board : Board) : ChessAI :=
  let state := get_state board in
  match q_table self !! state with
  | Some _ => self
  | None =>
      set_q_table
        (<[state := Row.of_keys (map uci (legal_moves board)) PyFloat.zero]>
           (q_table self))
        self
  end.

(** [choose_move]: the object after the call, and the move returned or
    the exception raised. *)
Definition choose_move (self : ChessAI) (board : Board) (rnd : Random)
  : ChessAI * result Move :=
  let state := get_state board in
  let self := init_row self board in
  if PyFloat.ltb (random rnd) (epsilon self) then
    (self, choice rnd (legal_moves board))
  else
    match q_table self !! state with
    | None => (self, Raise (KeyError state))
    | Some state_moves =>
        (self, best_move_uci ← max_by_get state_moves; Ok (from_uci best_move_uci))
    end.

(** [learn]: one iteration of the loop body, then the loop over
    [reversed(history)].  The augmented assignment reads
    [self.q_table[state][move_uci]] (raising [KeyError] when the row lacks
    the action), evaluates the right-hand side, which reads it again, and
    stores the sum into the same row object. *)
Definition learn_step (self : ChessAI) (reward : pyfloat)
    (entry : string * string * pyfloat) : ChessAI * result unit :=
  let '(state, move_uci, step_reward) := entry in
  let self :=
    match q_table self !! state with
    | Some _ => self
    | None =>
        set_q_table (<[state := [(move_uci, PyFloat.zero)]]> (q_table self)) self
    end in
  let total_reward := PyFloat.add step_reward reward in
  match q_table self !! state with
  | None => (self, Raise (KeyError state))
  | Some r =>
      match Row.getitem r move_uci with
      | Raise e => (self, Raise e)
      | Ok old =>
          let new :=
            PyFloat.add old
              (PyFloat.mul (learning_rate self) (PyFloat.sub total_reward old)) in
          (set_q_table (<[state := Row.setitem r move_uci new]> (q_table self)) self,
           Ok tt)
      end
  end.

Fixpoint learn_loop (self : ChessAI) (reward : pyfloat)
    (entries : list (string * string * pyfloat)) : ChessAI * result unit :=
  match entries with
  | [] => (self, Ok tt)
  | entry :: rest =>
      match learn_step self reward entry with
      | (self', Raise e) => (self', Raise e)
      | (self', Ok _) =>
          learn_loop self' (PyFloat.mul reward (discount_factor self')) rest
      end
  end.

Definition learn (self : ChessAI) (history : list (string * string * pyfloat))
    (final_reward : number) : ChessAI * result unit :=
  learn_loop self (to_float final_reward) (rev history).

(** The value stored for a (fingerprint, action) pair, if any. *)
Definition value (self : ChessAI) (state move_uci : string) : option pyfloat :=
  r ← q_table self !! state; Row.get r move_uci.

(** [play_game], lines 118-120: the reward passed to [learn] for the
    string [board.result()] returns. *)
Definition final_reward (result : string) : number :=
  if String.eqb result "0-1" then Float PyFloat.one
  else if String.eqb result "1-0" then Float PyFloat.minus_one
  else Int 0.

(** ** Persistence

    [save_brain] and [load_brain] reach the outside world through
    [os.path.exists], [open] and [pickle] only.  What those do is the
    operating system's and the pickle module's business; the learner is
    modelled over an interface of them.  [open_wb] is [open(name, 'wb')]
    (the file exists and is empty afterwards), [write] the writes
    [pickle.dump] makes up to the close of the [with] block, [read] is
    [open(name, 'rb')] with the reads [pickle.load] makes. *)

Class Storage : Type := {
  blob : Type;
  disk : Type;
  path_exists : disk -> string -> bool;
  open_wb : disk -> string -> result disk;
  write : disk -> string -> blob -> result disk;
  read : disk -> string -> result blob;
  pickle_dumps : gmap string row -> result blob;
  pickle_loads : blob -> result (gmap string row);
}.


Section Persistence.

Context {S : Storage}.

(** [save_brain]: the disk after a save that succeeded, or the exception
    that left the method.  There is no handler in it. *)
Definition save_brain (self : ChessAI) (d : disk) : result disk :=
  d1 ← open_wb d (filename self);
  b ← pickle_dumps (q_table self);
  write d1 (filename self) b.

(** The [try] block of [load_brain]. *)
Definition load_try (self : ChessAI) (d : disk) : ChessAI * result unit :=
  match read d (filename self) ≫= pickle_loads with
  | Raise e => (self, Raise e)
  | Ok q => (set_q_table q self, Ok tt)
  end.

(** [load_brain]: the bare [except:] catches whatever the block raised. *)
Definition load_brain (self : ChessAI) (d : disk) : ChessAI * result unit :=
  if path_exists d (filename self) then
    match load_try self d with
    | (self', Ok _) => (self', Ok tt)
    | (self', Raise _) => (set_q_table ∅ self', Ok tt)
    end
  else (self, Ok tt).

(** [__init__]. *)
Definition default_piece_values (p : piece_type) : Z :=
  match p with
  | PAWN => 1
  | KNIGHT => 3
  | BISHOP => 3
  | ROOK => 5
  | QUEEN => 9
  | KING => 0
  end.

Definition init (name : string) (d : disk) : ChessAI * result unit :=
  load_brain
    {| filename := name;
       q_table := ∅;
       learning_rate := PyFloat.lit_0_5;
       discount_factor := PyFloat.lit_0_9;
       epsilon := PyFloat.lit_0_2;
       piece_values := default_piece_values |}
    d.

End Persistence.

(** An in-memory file system, with files that cannot be opened for
    writing and blobs that are no pickle of a table.  It satisfies the laws
    above and shows every failure the interface allows. *)
Module MemDisk.

Inductive mem_blob : Type :=
  | Pickled (q : gmap string row)
  | Garbage.

Record mem_disk : Type := {
  files : gmap string mem_blob;
  read_only : list string;
}.

Definition locked (d : mem_disk) (name : string) : bool :=
  existsb (String.eqb name) (read_only d).

#[export] Instance storage : Storage := {|
  blob := mem_blob;
  disk := mem_disk;
  path_exists d name := bool_decide (is_Some (files d !! name));
  open_wb d name :=
    if locked d name then Raise (OSError "Permission denied")
    else Ok {| files := <[name := Garbage]> (files d); read_only := read_only d |};
  write d name b :=
    Ok {| files := <[name := b]> (files d); read_only := read_only d |};
  read d name :=
    match files d !! name with
    | Some b => Ok b
    | None => Raise (OSError "No such file or directory")
    end;
  pickle_dumps q := Ok (Pickled q);
  pickle_loads b :=
    match b with
    | Pickled q => Ok q
    | Garbage => Raise (PickleError "invalid load key")
    end;
|}.

End MemDisk.

(** ** Material

    [get_material_score] reads the board through [board.piece_at] only,
    which is what it takes here: the piece on a square, if any.
    [chess.SQUARES] are the numbers 0 (a1) to 63 (h8).  Python's ints do
    not overflow; scores are in [Z]. *)

Inductive Color : Type := WHITE | BLACK.

Record Piece : Type := {
  kind : piece_type;     (* [piece.piece_type] *)
  color : Color;         (* [piece.color] *)
}.

Definition SQUARES : list nat := seq 0 64.

Definition get_material_score (self : ChessAI) (piece_at : nat -> option Piece) : Z :=
  fold_left
    (fun score square =>
       match piece_at square with
       | Some piece =>
           let val := piece_values self (kind piece) in
           match color piece with
           | BLACK => (score + val)%Z
           | WHITE => (score - val)%Z
           end
       | None => score
       end)
    SQUARES 0%Z.

(** [play_game], line 110: [(new_score - old_score) * 0.1], an int times
    a float. *)
Definition step_reward_of (old_score new_score : Z) : pyfloat :=
  PyFloat.mul (to_float (Int (new_score - old_score))) PyFloat.lit_0_1.

(** ** The game loop

    [play_game] drives a [chess.Board], a mutable object of the rules
    engine, through the methods below; a [position] is the state of that
    object at one moment.  What the loop gets from outside in one
    iteration is the line [input] returns (read on White's turns only)
    and the random draws (used on Black's turns only); printing is left
    out. *)

Class Rules : Type := {
  position : Type;
  start : position;                                (* [chess.Board()] *)
  view : position -> Board;                        (* [fen()], [legal_moves] *)
  piece_at : position -> nat -> option Piece;
  turn : position -> Color;
  is_game_over : position -> bool;
  parse_san : position -> string -> result Move;
  push : position -> Move -> position;
  result_of : position -> string;                  (* [board.result()] *)
}.

Section GameLoop.

Context {R : Rules} {S : Storage}.

(** The variables of [play_game]. *)
Record Game : Type := {
  board : position;
  history : list (string * string * pyfloat);
  ai : ChessAI;
}.

(** One iteration of the [while] body.  On White's turn a line that
    [parse_san] rejects is reported and the loop continues; on Black's
    turn an exception of [choose_move] leaves the loop. *)
Definition play_turn (g : Game) (line : string) (rnd : Random)
  : Game * result unit :=
  match turn (board g) with
  | WHITE =>
      match parse_san (board g) line with
      | Ok move =>
          ({| board := push (board g) move; history := history g; ai := ai g |},
           Ok tt)
      | Raise _ => (g, Ok tt)
      end
  | BLACK =>
      let state := get_state (view (board g)) in
      let old_score := get_material_score (ai g) (piece_at (board g)) in
      match choose_move (ai g) (view (board g)) rnd with
      | (ai', Raise e) =>
          ({| board := board g; history := history g; ai := ai' |}, Raise e)
      | (ai', Ok move) =>
          let board' := push (board g) move in
          let new_score := get_material_score ai' (piece_at board') in
          let step_reward := step_reward_of old_score new_score in
          ({| board := board';
              history := history g ++ [(state, uci move, step_reward)];
              ai := ai' |},
           Ok tt)
      end
  end.

(** The [while] loop, for as long as the outside supplies events. *)
Fixpoint play_loop (g : Game) (events : list (string * Random))
  : Game * result unit :=
  match events with
  | [] => (g, Ok tt)
  | (line, rnd) :: events' =>
      if is_game_over (board g) then (g, Ok tt)
      else
        match play_turn g line rnd with
        | (g', Raise e) => (g', Raise e)
        | (g', Ok _) => play_loop g' events'
        end
  end.

(** How a run of [play_game] ends. *)
Inductive outcome : Type :=
  | Unfinished (g : Game)              (* the events ran out mid-game *)
  | MoveRaised (g : Game) (e : exn)       (* [choose_move] raised *)
  | LearnRaised (self : ChessAI) (e : exn)  (* [learn] raised; nothing saved *)
  | Saved (self : ChessAI) (r : result disk).  (* [save_brain] ran *)

(** Lines 115-123, after the loop. *)
Definition finish (g : Game) (d : disk) : outcome :=
  match learn (ai g) (history g) (final_reward (result_of (board g))) with
  | (self, Raise e) => LearnRaised self e
  | (self, Ok _) => Saved self (save_brain self d)
  end.

Definition play_game (d : disk) (events : list (string * Random)) : outcome :=
  let self := fst (init "chess_brain_v2.pkl" d) in
  match play_loop {| board := start; history := []; ai := self |} events with
  | (g, Raise e) => MoveRaised g e
  | (g, Ok _) =>
      if is_game_over (board g) then finish g d else Unfinished g
  end.

End GameLoop.

(** A two-ply game for examples: White moves, Black answers, and the
    game is over; every position has the same two legal moves. *)
Module ToyRules.

Definition toy_view (p : nat) : Board :=
  {| fen := if Nat.eqb p 1 then "after e4" else "elsewhere";
     legal_moves := [from_uci "e7e5"; from_uci "g8f6"] |}.

#[export] Instance rules : Rules := {|
  position := nat;
  start := 0%nat;
  view := toy_view;
  piece_at p sq := None;
  turn p := if Nat.even p then WHITE else BLACK;
  is_game_over p := Nat.leb 2 p;
  parse_san p line :=
    if String.eqb line "e4" then Ok (from_uci "e2e4") else Raise ValueError;
  push p move := S p;
  result_of p := "1/2-1/2";
|}.

End ToyRules.

(** ** Auxiliary definitions for the proofs *)

(** The order [SFcompare] puts on two finite floats of the same sign:
    by exponent, then by mantissa. *)
Definition fin_cmp (e1 : Z) (m1 : positive) (e2 : Z) (m2 : positive) : comparison :=
  match Z.compare e1 e2 with
  | Lt => Lt
  | Gt => Gt
  | Eq => Pos.compare_cont Eq m1 m2
  end.

(** What [0.0 + x] is: [x], but [0.0] when [x] is [-0.0]. *)
Definition plus_zero (x : pyfloat) : pyfloat :=
  match x with
  | S754_zero true => S754_zero false
  | _ => x
  end.

(** The dict comprehension, from any dict built so far. *)
Definition store_all (v : pyfloat) (ks : list string) (d : row) : row :=
  fold_left (fun d k => Row.setitem d k v) ks d.

(** [a], the key at position [i] of [ks], is the first maximum of [key]
    over [ks]: no key has a value that compares greater, and every key
    before position [i] has a value that is neither equal nor greater. *)
Definition first_max (key : string -> option pyfloat) (ks : list string)
    (i : nat) (a : string) (va : pyfloat) : Prop :=
  ks !! i = Some a /\ key a = Some va /\
  (forall j b vb, ks !! j = Some b -> key b = Some vb -> PyFloat.gtb vb va = false) /\
  (forall j b vb, (j < i)%nat -> ks !! j = Some b -> key b = Some vb ->
                  PyFloat.leb va vb = false).

(** The table [q'] has every (fingerprint, action) pair of [q]. *)
Definition table_le (q q' : gmap string row) : Prop :=
  forall s r a, q !! s = Some r -> a ∈ Row.keys r ->
                exists r', q' !! s = Some r' /\ a ∈ Row.keys r'.

(** The (fingerprint, action) pair of a history entry. *)
Definition pair_of (entry : string * string * pyfloat) : string * string :=
  (entry.1.1, entry.1.2).


(** [old + alpha * (target - old)], as line 64 computes it. *)
Definition blend (alpha old target : pyfloat) : pyfloat :=
  PyFloat.add old (PyFloat.mul alpha (PyFloat.sub target old)).

(** The row [r] has exactly the legal actions of [board] as its keys. *)
Definition row_matches (board : Board) (r : row) : Prop :=
  forall a, a ∈ Row.keys r <-> a ∈ map uci (legal_moves board).

(** What the piece on a square adds to the score, and the total value of
    one side's pieces. *)
Definition contribution (self : ChessAI) (p : option Piece) : Z :=
  match p with
  | Some piece =>
      match color piece with
      | BLACK => piece_values self (kind piece)
      | WHITE => (- piece_values self (kind piece))%Z
      end
  | None => 0%Z
  end.

Definition side_value (self : ChessAI) (c : Color) (p : option Piece) : Z :=
  match p with
  | Some piece =>
      match color piece, c with
      | BLACK, BLACK | WHITE, WHITE => piece_values self (kind piece)
      | _, _ => 0%Z
      end
  | None => 0%Z
  end.

Definition total (f : nat -> Z) (squares : list nat) : Z :=
  foldr (fun square acc => f square + acc)%Z 0%Z squares.

Definition swap_color (p : Piece) : Piece :=
  {| kind := kind p;
     color := match color p with WHITE => BLACK | BLACK => WHITE end |}.

(** The step reward of a score difference has the sign of the
    difference, and is [0.0] for no difference. *)
Definition sign_agrees (delta : Z) : bool :=
  let r := step_reward_of 0 delta in
  match (delta ?= 0)%Z with
  | Gt => PyFloat.ltb PyFloat.zero r
  | Lt => PyFloat.ltb r PyFloat.zero
  | Eq => match r with S754_zero false => true | _ => false end
  end.

(** The score differences two boards can have under the piece values of
    [__init__]: -1152 to 1152. *)
Definition deltas : list Z := map (fun n => (Z.of_nat n - 1152)%Z) (seq 0 2305).

Section GameInvariants.

Context {R : Rules}.

(** Positions with the same fingerprint have the same legal moves, as
    they do in chess. *)
Definition fen_decides_moves : Prop :=
  forall p1 p2 : position,
    fen (view p1) = fen (view p2) -> legal_moves (view p1) = legal_moves (view p2).

(** Every row of the table has exactly the legal actions of the positions
    it is the row of. *)
Definition table_consistent (q : gmap string row) : Prop :=
  forall (p : position) (r : row),
    q !! fen (view p) = Some r -> row_matches (view p) r.

(** Every pair of the history has a value in the table. *)
Definition history_known (self : ChessAI)
    (history : list (string * string * pyfloat)) : Prop :=
  forall s a x, (s, a, x) ∈ history -> is_Some (value self s a).

End GameInvariants.

(** ** Example objects *)

(** The learner [__init__] builds when there is no brain file. *)
Definition fresh_ai : ChessAI :=
  {| filename := "chess_brain_v2.pkl";
     q_table := ∅;
     learning_rate := PyFloat.lit_0_5;
     discount_factor := PyFloat.lit_0_9;
     epsilon := PyFloat.lit_0_2;
     piece_values := default_piece_values |}.

(** A learner whose table has the one row [learn] creates for a
    fingerprint it has not seen: the action taken, and nothing else. *)
Definition stale_ai : ChessAI :=
  set_q_table {[ "s" := [("a", PyFloat.zero)] ]} fresh_ai.

(** A position with three legal moves, a coin that explores and a coin
    that does not ([epsilon] is [0.2]). *)
Definition board0 : Board :=
  {| fen := "rnbqkbnr/pppppppp/8/8/4P3/8/PPPP1PPP/RNBQKBNR b KQkq - 0 1";
     legal_moves := [from_uci "e7e5"; from_uci "g8f6"; from_uci "b8c6"] |}.

Definition exploring : Random :=
  {| random := PyFloat.lit_0_1; randbelow := fun _ => 2%nat |}.

Definition greedy : Random :=
  {| random := PyFloat.lit_0_9; randbelow := fun _ => 2%nat |}.

(** A learner that knows [board0] with two actions tied at [0.3], after
    a smaller one. *)
Definition tied_ai : ChessAI :=
  set_q_table
    {[ fen board0 :=
         [("e7e5", PyFloat.lit_0_1); ("g8f6", PyFloat.lit_0_3); ("b8c6", PyFloat.lit_0_3)] ]}
    fresh_ai.

(** Disks: an empty one, the one [tied_ai] saves to it, one whose brain
    file is no pickle, and one whose brain file cannot be opened for
    writing. *)
Definition empty_disk : MemDisk.mem_disk :=
  {| MemDisk.files := ∅; MemDisk.read_only := [] |}.


Definition garbage_disk : MemDisk.mem_disk :=
  {| MemDisk.files := {[ "chess_brain_v2.pkl" := MemDisk.Garbage ]};
     MemDisk.read_only := [] |}.


(** A position with no legal move (a mate or a stalemate), and the same
    fingerprint presented with a legal move. *)
Definition dead_board : Board :=
  {| fen := "7k/5Q2/6K1/8/8/8/8/8 b - - 0 1"; legal_moves := [] |}.

Definition dead_board_with_move : Board :=
  {| fen := "7k/5Q2/6K1/8/8/8/8/8 b - - 0 1"; legal_moves := [from_uci "h8g8"] |}.

(** A black pawn on e6 (square 44) that can take a white knight on d5
    (square 35), and the board after it did. *)
Definition pawn_takes_knight (sq : nat) : option Piece :=
  if Nat.eqb sq 44 then Some {| kind := PAWN; color := BLACK |}
  else if Nat.eqb sq 35 then Some {| kind := KNIGHT; color := WHITE |}
  else None.

Definition pawn_has_taken (sq : nat) : option Piece :=
  if Nat.eqb sq 35 then Some {| kind := PAWN; color := BLACK |} else None.

(** What the outside supplies to a toy game: a line that is no move, a
    move, and the draws for Black's answer. *)
Definition toy_events : list (string * Random) :=
  [("Nf9", greedy); ("e4", greedy); ("", exploring)].



(** * Properties *)

(** ** Floats: the order Python compares by *)

Lemma fin_cmp_lt e1 m1 e2 m2 :
  fin_cmp e1 m1 e2 m2 = Lt <-> (e1 < e2 \/ (e1 = e2 /\ (m1 < m2)%positive))%Z.
Proof.
  unfold fin_cmp. change (Pos.compare_cont Eq m1 m2) with (Pos.compare m1 m2).
  destruct (Z.compare_spec e1 e2); destruct (Pos.compare_spec m1 m2);
    split; intros; try discriminate; try lia; auto.
Qed.

Lemma fin_cmp_gt e1 m1 e2 m2 :
  fin_cmp e1 m1 e2 m2 = Gt <-> (e2 < e1 \/ (e1 = e2 /\ (m2 < m1)%positive))%Z.
Proof.
  unfold fin_cmp. change (Pos.compare_cont Eq m1 m2) with (Pos.compare m1 m2).
  destruct (Z.compare_spec e1 e2); destruct (Pos.compare_spec m1 m2);
    split; intros; try discriminate; try lia; auto.
Qed.

Lemma fin_cmp_eq e1 m1 e2 m2 :
  fin_cmp e1 m1 e2 m2 = Eq <-> (e1 = e2 /\ m1 = m2).
Proof.
  unfold fin_cmp. change (Pos.compare_cont Eq m1 m2) with (Pos.compare m1 m2).
  destruct (Z.compare_spec e1 e2); destruct (Pos.compare_spec m1 m2);
    split; intros; try discriminate; try lia; auto.
Qed.

Lemma SFcompare_finite s1 m1 e1 s2 m2 e2 :
  SFcompare (S754_finite s1 m1 e1) (S754_finite s2 m2 e2) =
  Some match s1, s2 with
       | true, false => Lt
       | false, true => Gt
       | false, false => fin_cmp e1 m1 e2 m2
       | true, true => CompOpp (fin_cmp e1 m1 e2 m2)
       end.
Proof.
  unfold fin_cmp; simpl.
  destruct s1, s2; try reflexivity; destruct (Z.compare e1 e2); reflexivity.
Qed.

Ltac fin_cmp_cases :=
  repeat match goal with
  | H : context [fin_cmp ?a ?b ?c ?d] |- _ =>
      let E := fresh "E" in
      destruct (fin_cmp a b c d) eqn:E;
      [apply fin_cmp_eq in E | apply fin_cmp_lt in E | apply fin_cmp_gt in E]
  | |- context [fin_cmp ?a ?b ?c ?d] =>
      let E := fresh "E" in
      destruct (fin_cmp a b c d) eqn:E;
      [apply fin_cmp_eq in E | apply fin_cmp_lt in E | apply fin_cmp_gt in E]
  end.

Ltac float_order :=
  rewrite ?SFcompare_finite; simpl; try discriminate; try reflexivity;
  repeat match goal with s : bool |- _ => destruct s end; simpl;
  try discriminate; try reflexivity;
  intros; fin_cmp_cases; simpl in *;
  try discriminate; try reflexivity; exfalso; lia.

Lemma ltb_irrefl (x : pyfloat) : PyFloat.ltb x x = false.
Proof.
  unfold PyFloat.ltb, SFltb. destruct x as [[]|[]| |s m e]; try reflexivity.
  rewrite SFcompare_finite.
  assert (fin_cmp e m e m = Eq) as -> by (apply fin_cmp_eq; auto).
  destruct s; reflexivity.
Qed.

Lemma ltb_trans (x y z : pyfloat) :
  PyFloat.ltb x y = true -> PyFloat.ltb y z = true -> PyFloat.ltb x z = true.
Proof.
  unfold PyFloat.ltb, SFltb.
  destruct x as [[]|[]| |sx mx ex], y as [[]|[]| |sy my ey],
    z as [[]|[]| |sz mz ez]; float_order.
Qed.

Lemma ltb_leb_trans (x y z : pyfloat) :
  PyFloat.ltb x y = true -> PyFloat.leb y z = true -> PyFloat.ltb x z = true.
Proof.
  unfold PyFloat.ltb, PyFloat.leb, SFltb, SFleb.
  destruct x as [[]|[]| |sx mx ex], y as [[]|[]| |sy my ey],
    z as [[]|[]| |sz mz ez]; float_order.
Qed.

(** ** Floats: arithmetic against zero *)



Lemma plus_zero_id (x : pyfloat) : x <> PyFloat.neg_zero -> plus_zero x = x.
Proof.
  destruct x as [[]|[]| |s m e]; intros H; try reflexivity.
  exfalso; apply H; reflexivity.
Qed.

(** ** Rows *)

Lemma get_setitem_eq (d : row) k v : Row.get (Row.setitem d k v) k = Some v.
Proof.
  induction d as [|[k' v'] d IH]; simpl.
  - by rewrite String.eqb_refl.
  - destruct (String.eqb k' k) eqn:E; simpl; rewrite E; auto.
Qed.

Lemma get_setitem_ne (d : row) k k' v :
  k <> k' -> Row.get (Row.setitem d k v) k' = Row.get d k'.
Proof.
  intros Hne. induction d as [|[k0 v0] d IH]; simpl.
  - destruct (String.eqb_spec k k'); congruence.
  - destruct (String.eqb_spec k0 k) as [->|]; simpl.
    + destruct (String.eqb_spec k k'); congruence.
    + destruct (String.eqb_spec k0 k'); auto.
Qed.

Lemma get_None_keys (d : row) k : Row.get d k = None <-> k ∉ Row.keys d.
Proof.
  induction d as [|[k' v'] d IH]; simpl.
  - split; [intros _; apply not_elem_of_nil | auto].
  - rewrite not_elem_of_cons.
    destruct (String.eqb_spec k' k) as [->|]; split; try discriminate.
    + intros [? _]; congruence.
    + intros ?; split; [congruence | by apply IH].
    + intros [_ ?]; by apply IH.
Qed.

Lemma get_Some_keys (d : row) k : is_Some (Row.get d k) <-> k ∈ Row.keys d.
Proof.
  destruct (Row.get d k) eqn:E.
  - split; [intros _ | eauto].
    destruct (decide (k ∈ Row.keys d)) as [|Hn]; [done|].
    apply get_None_keys in Hn. congruence.
  - split; [intros [? ?]; discriminate |].
    intros Hin. apply get_None_keys in E. contradiction.
Qed.

Lemma keys_setitem_present (d : row) k v :
  k ∈ Row.keys d -> Row.keys (Row.setitem d k v) = Row.keys d.
Proof.
  induction d as [|[k' v'] d IH]; simpl.
  - intros H; by apply elem_of_nil in H.
  - intros H. destruct (String.eqb_spec k' k) as [->|Hne]; simpl; [done|].
    f_equal. apply IH. apply elem_of_cons in H as [->|]; [contradiction | done].
Qed.

Lemma keys_setitem_absent (d : row) k v :
  k ∉ Row.keys d -> Row.keys (Row.setitem d k v) = Row.keys d ++ [k].
Proof.
  induction d as [|[k' v'] d IH]; simpl; [done|].
  rewrite not_elem_of_cons. intros [Hne Hin].
  destruct (String.eqb_spec k' k) as [->|_]; [contradiction|].
  simpl. f_equal. by apply IH.
Qed.

Lemma keys_setitem_elem (d : row) k v a :
  a ∈ Row.keys (Row.setitem d k v) <-> a = k \/ a ∈ Row.keys d.
Proof.
  destruct (decide (k ∈ Row.keys d)) as [Hin|Hin].
  - rewrite keys_setitem_present by done. split; [auto | intros [->|]; done].
  - rewrite keys_setitem_absent by done. rewrite elem_of_app, list_elem_of_singleton.
    tauto.
Qed.

Lemma keys_setitem_NoDup (d : row) k v :
  NoDup (Row.keys d) -> NoDup (Row.keys (Row.setitem d k v)).
Proof.
  intros Hnd. destruct (decide (k ∈ Row.keys d)) as [Hin|Hin].
  - by rewrite keys_setitem_present.
  - rewrite keys_setitem_absent by done. apply NoDup_app. split; [done|].
    split; [|apply NoDup_singleton].
    intros x Hx Hk. apply list_elem_of_singleton in Hk. congruence.
Qed.

Lemma store_all_cons v k ks (d : row) :
  store_all v (k :: ks) d = store_all v ks (Row.setitem d k v).
Proof. reflexivity. Qed.

Lemma store_all_elem v ks (d : row) a :
  a ∈ Row.keys (store_all v ks d) <-> a ∈ Row.keys d \/ a ∈ ks.
Proof.
  revert d. induction ks as [|k ks IH]; intros d.
  - simpl. split; [auto | intros [?|H]; [done | by apply elem_of_nil in H]].
  - rewrite store_all_cons, IH, keys_setitem_elem, elem_of_cons. tauto.
Qed.

Lemma store_all_NoDup v ks (d : row) :
  NoDup (Row.keys d) -> NoDup (Row.keys (store_all v ks d)).
Proof.
  revert d. induction ks as [|k ks IH]; intros d Hnd; [done|].
  rewrite store_all_cons. apply IH. by apply keys_setitem_NoDup.
Qed.

Lemma store_all_get v ks (d : row) a :
  Row.get (store_all v ks d) a = if decide (a ∈ ks) then Some v else Row.get d a.
Proof.
  revert d. induction ks as [|k ks IH]; intros d.
  - rewrite decide_False by apply not_elem_of_nil. reflexivity.
  - rewrite store_all_cons, IH.
    destruct (decide (a ∈ ks)) as [Hin|Hin].
    + rewrite decide_True; [done | by apply elem_of_cons; right].
    + destruct (decide (a = k)) as [->|Hne].
      * rewrite decide_True by (apply elem_of_cons; by left).
        apply get_setitem_eq.
      * rewrite decide_False.
        -- by apply get_setitem_ne.
        -- rewrite elem_of_cons. tauto.
Qed.

Lemma store_all_keys_fresh v ks (d : row) :
  NoDup ks -> (forall k, k ∈ ks -> k ∉ Row.keys d) ->
  Row.keys (store_all v ks d) = Row.keys d ++ ks.
Proof.
  revert d. induction ks as [|k ks IH]; intros d Hnd Hdisj.
  - simpl. by rewrite app_nil_r.
  - apply NoDup_cons in Hnd as [Hk Hnd].
    rewrite store_all_cons, IH; [| done |].
    + rewrite keys_setitem_absent by (apply Hdisj; apply elem_of_cons; by left).
      by rewrite <- app_assoc.
    + intros k' Hk'. rewrite keys_setitem_elem. intros [->|Hin]; [done|].
      by apply (Hdisj k'); [apply elem_of_cons; right|].
Qed.

Lemma of_keys_store_all ks v : Row.of_keys ks v = store_all v ks [].
Proof. reflexivity. Qed.

Lemma of_keys_elem ks v a : a ∈ Row.keys (Row.of_keys ks v) <-> a ∈ ks.
Proof.
  rewrite of_keys_store_all, store_all_elem. simpl.
  split; [intros [H|]; [by apply elem_of_nil in H | done] | auto].
Qed.

Lemma of_keys_get ks v a :
  Row.get (Row.of_keys ks v) a = if decide (a ∈ ks) then Some v else None.
Proof. by rewrite of_keys_store_all, store_all_get. Qed.

Lemma of_keys_NoDup ks v : NoDup (Row.keys (Row.of_keys ks v)).
Proof. rewrite of_keys_store_all. apply store_all_NoDup. simpl. apply NoDup_nil_2. Qed.

Lemma of_keys_keys ks v : NoDup ks -> Row.keys (Row.of_keys ks v) = ks.
Proof.
  intros Hnd. rewrite of_keys_store_all, store_all_keys_fresh; [done | done |].
  intros k _. simpl. apply not_elem_of_nil.
Qed.

(** ** [learn] *)

Lemma learn_step_present self reward s a x r old :
  q_table self !! s = Some r -> Row.get r a = Some old ->
  learn_step self reward (s, a, x) =
    (set_q_table
       (<[s := Row.setitem r a
                 (PyFloat.add old
                    (PyFloat.mul (learning_rate self)
                       (PyFloat.sub (PyFloat.add x reward) old)))]> (q_table self))
       self,
     Ok tt).
Proof.
  intros Hs Ha. unfold learn_step, Row.getitem. rewrite Hs. simpl. by rewrite Hs, Ha.
Qed.

Lemma learn_step_missing_action self reward s a x r :
  q_table self !! s = Some r -> Row.get r a = None ->
  learn_step self reward (s, a, x) = (self, Raise (KeyError a)).
Proof.
  intros Hs Ha. unfold learn_step, Row.getitem. rewrite Hs. simpl. by rewrite Hs, Ha.
Qed.

Lemma learn_step_fresh self reward s a x :
  q_table self !! s = None ->
  learn_step self reward (s, a, x) =
    (set_q_table
       (<[s := [(a, PyFloat.add PyFloat.zero
                      (PyFloat.mul (learning_rate self)
                         (PyFloat.sub (PyFloat.add x reward) PyFloat.zero)))]]>
          (q_table self))
       self,
     Ok tt).
Proof.
  intros Hs. unfold learn_step, Row.getitem. rewrite Hs. simpl.
  rewrite lookup_insert_eq. simpl. rewrite String.eqb_refl.
  by rewrite insert_insert_eq.
Qed.

Lemma learn_missing_action_raises self s a x R r :
  q_table self !! s = Some r -> Row.get r a = None ->
  learn self [(s, a, x)] R = (self, Raise (KeyError a)).
Proof.
  intros Hs Ha. unfold learn. cbn [rev app learn_loop].
  by rewrite (learn_step_missing_action _ _ _ _ _ _ Hs Ha).
Qed.

(** C8: [learn] with an empty history runs the loop body zero times: it
    returns normally and the learner, its value table included, is the
    object it was. *)
Theorem learn_empty_history (self : ChessAI) (final_reward : number) :
  learn self [] final_reward = (self, Ok tt).
Proof. reflexivity. Qed.

(** C1, at the input where the code departs from it: the row [learn]
    itself creates for ["s"] holds action ["a"] only; a later update of
    (["s"], ["b"]) finds the row, does not insert ["b"], and raises
    [KeyError] with the table untouched. *)
Theorem learn_row_without_action_raises :
  fst (learn fresh_ai [("s", "a", PyFloat.zero)] (Int 0)) = stale_ai /\
  q_table stale_ai !! "s" = Some [("a", PyFloat.zero)] /\
  learn stale_ai [("s", "b", PyFloat.zero)] (Float PyFloat.one)
    = (stale_ai, Raise (KeyError "b")).
Proof. split; [|split]; reflexivity. Qed.

(** C2, at the input where the code departs from it: two steps at one
    fingerprint with different actions, on an empty table.  The last
    step creates the row with its own action and stores
    [0.5 * (-0.2 + 1.0) = 0.4]; the first step then finds the row
    without its action and raises, so no value is stored for it. *)
Theorem learn_two_steps_one_state_raises :
  let history := [("s", "a", PyFloat.lit_0_1); ("s", "b", PyFloat.lit_minus_0_2)] in
  let after := learn fresh_ai history (Float PyFloat.one) in
  snd after = Raise (KeyError "a") /\
  value (fst after) "s" "b" = Some PyFloat.lit_0_4 /\
  value (fst after) "s" "a" = None.
Proof. split; [|split]; reflexivity. Qed.

(** ** [play_game]: the terminal reward *)

(** C9: the reward handed to [learn] is [1.0] for the result ["0-1"],
    [-1.0] for ["1-0"], and for every other result string the int [0],
    which float arithmetic reads as [0.0]. *)
Theorem final_reward_mapping :
  final_reward "0-1" = Float PyFloat.one /\
  final_reward "1-0" = Float PyFloat.minus_one /\
  forall result : string,
    result <> "0-1" -> result <> "1-0" ->
    final_reward result = Int 0 /\
    to_float (final_reward result) = PyFloat.zero.
Proof.
  split; [reflexivity|]. split; [reflexivity|].
  intros result H1 H2. unfold final_reward.
  destruct (String.eqb_spec result "0-1"); [contradiction|].
  destruct (String.eqb_spec result "1-0"); [contradiction|].
  split; reflexivity.
Qed.

Lemma final_reward_mapping_witness :
  to_float (final_reward "1/2-1/2") = PyFloat.zero /\
  to_float (final_reward "*") = PyFloat.zero.
Proof.
  destruct final_reward_mapping as (_ & _ & H).
  split; [apply (H "1/2-1/2") | apply (H "*")]; discriminate.
Defined.

(** ** [choose_move]: the row of the current fingerprint *)

Lemma choose_move_fst self board rnd :
  fst (choose_move self board rnd) = init_row self board.
Proof.
  unfold choose_move.
  destruct (PyFloat.ltb _ _); [done|].
  by destruct (q_table (init_row self board) !! get_state board).
Qed.

Lemma init_row_absent self board :
  q_table self !! fen board = None ->
  q_table (init_row self board) =
    <[fen board := Row.of_keys (map uci (legal_moves board)) PyFloat.zero]> (q_table self).
Proof. intros H. unfold init_row, get_state. by rewrite H. Qed.

Lemma init_row_present self board r :
  q_table self !! fen board = Some r -> init_row self board = self.
Proof. intros H. unfold init_row, get_state. by rewrite H. Qed.

Lemma init_row_epsilon self board : epsilon (init_row self board) = epsilon self.
Proof. unfold init_row. by destruct (q_table self !! get_state board). Qed.



(** C6: after [choose_move] on a fingerprint the table did not have, the
    table has a row for it whose keys are exactly the legal actions (in
    their order, when they are distinct), each mapped to [0.0]; a row the
    table already had is left as it was, whatever the legal actions. *)
Theorem choose_move_row_initialization
    (self : ChessAI) (board : Board) (rnd : Random) :
  let self' := fst (choose_move self board rnd) in
  (q_table self !! fen board = None ->
   exists r,
     q_table self' !! fen board = Some r /\
     (forall a, a ∈ Row.keys r <-> a ∈ map uci (legal_moves board)) /\
     (forall a, a ∈ Row.keys r -> Row.get r a = Some PyFloat.zero) /\
     NoDup (Row.keys r) /\
     (NoDup (map uci (legal_moves board)) ->
      Row.keys r = map uci (legal_moves board))) /\
  (forall r, q_table self !! fen board = Some r ->
             q_table self' !! fen board = Some r).
Proof.
  simpl. rewrite choose_move_fst. split.
  - intros Habs. rewrite (init_row_absent _ _ Habs), lookup_insert_eq.
    eexists; split; [reflexivity|].
    split; [intros a; apply of_keys_elem|].
    split; [|split; [apply of_keys_NoDup | apply of_keys_keys]].
    intros a Ha. apply of_keys_elem in Ha.
    rewrite of_keys_get. by rewrite decide_True.
  - intros r Hr. by rewrite (init_row_present _ _ _ Hr).
Qed.

Lemma choose_move_row_initialization_witness :
  (exists r,
     q_table (fst (choose_move fresh_ai board0 exploring)) !! fen board0 = Some r /\
     Row.keys r = ["e7e5"; "g8f6"; "b8c6"] /\
     (forall a, a ∈ Row.keys r -> Row.get r a = Some PyFloat.zero)) /\
  q_table (fst (choose_move tied_ai board0 exploring)) !! fen board0 =
    Some [("e7e5", PyFloat.lit_0_1); ("g8f6", PyFloat.lit_0_3); ("b8c6", PyFloat.lit_0_3)].
Proof.
  destruct (choose_move_row_initialization fresh_ai board0 exploring) as [Hnew _].
  destruct (choose_move_row_initialization tied_ai board0 exploring) as [_ Hold].
  split.
  - destruct (Hnew eq_refl) as (r & Hr & _ & Hz & _ & Hk).
    exists r. split; [exact Hr|]. split; [|exact Hz].
    apply Hk. compute_done.
  - apply Hold. reflexivity.
Defined.

(** C10: [choose_move] stores the row of an absent fingerprint before it
    draws the coin.  Whatever the random source, the table afterwards is
    the table before with that one row added, every legal action in it at
    [0.0]; every other fingerprint keeps its row or its absence; and when
    the coin says explore, the move returned is the random choice among
    the legal moves. *)
Theorem choose_move_initializes_before_exploring
    (self : ChessAI) (board : Board) (rnd : Random) :
  let self' := fst (choose_move self board rnd) in
  (q_table self !! fen board = None ->
   q_table self' =
     <[fen board := Row.of_keys (map uci (legal_moves board)) PyFloat.zero]>
       (q_table self) /\
   forall m, m ∈ legal_moves board ->
             value self' (fen board) (uci m) = Some PyFloat.zero) /\
  (forall s, s <> fen board -> q_table self' !! s = q_table self !! s) /\
  (PyFloat.ltb (random rnd) (epsilon self) = true ->
   snd (choose_move self board rnd) = choice rnd (legal_moves board)).
Proof.
  simpl. rewrite choose_move_fst. split; [|split].
  - intros Habs. split; [by apply init_row_absent|].
    intros m Hm. unfold value.
    rewrite (init_row_absent _ _ Habs), lookup_insert_eq. simpl.
    rewrite of_keys_get, decide_True; [done|].
    apply list_elem_of_fmap. eauto.
  - intros s Hne. destruct (q_table self !! fen board) as [r|] eqn:E.
    + by rewrite (init_row_present _ _ _ E).
    + rewrite (init_row_absent _ _ E). by apply lookup_insert_ne.
  - intros Hcoin. unfold choose_move.
    by rewrite init_row_epsilon, Hcoin.
Qed.

Lemma choose_move_initializes_before_exploring_witness :
  q_table (fst (choose_move fresh_ai board0 exploring)) =
    {[ fen board0 :=
         [("e7e5", PyFloat.zero); ("g8f6", PyFloat.zero); ("b8c6", PyFloat.zero)] ]} /\
  snd (choose_move fresh_ai board0 exploring) = Ok (from_uci "b8c6").
Proof.
  destruct (choose_move_initializes_before_exploring fresh_ai board0 exploring)
    as (Hrow & _ & Hmove).
  split.
  - destruct (Hrow eq_refl) as [-> _]. reflexivity.
  - rewrite Hmove; reflexivity.
Defined.

(** ** [choose_move]: the greedy branch *)

Lemma first_max_singleton key k v :
  key k = Some v -> first_max key [k] 0 k v.
Proof.
  intros Hk. split; [done|]. split; [done|]. split.
  - intros j b vb Hj Hb. apply list_lookup_singleton_Some in Hj as [_ <-].
    assert (vb = v) as -> by congruence. apply ltb_irrefl.
  - intros j b vb Hlt. lia.
Qed.

Lemma first_max_keep key pre i a va k v :
  first_max key pre i a va -> key k = Some v -> PyFloat.gtb v va = false ->
  first_max key (pre ++ [k]) i a va.
Proof.
  intros (Hi & Ha & Hmax & Hfirst) Hk Hgt.
  pose proof (lookup_lt_Some _ _ _ Hi) as Hlen.
  split; [by rewrite lookup_app_l|]. split; [done|]. split.
  - intros j b vb Hj Hb. apply lookup_app_Some in Hj as [Hj|[_ Hj]]; [eauto|].
    apply list_lookup_singleton_Some in Hj as [_ <-].
    by assert (vb = v) as -> by congruence.
  - intros j b vb Hlt Hj Hb. rewrite lookup_app_l in Hj by lia. eauto.
Qed.

Lemma first_max_replace key pre i a va k v :
  first_max key pre i a va -> key k = Some v -> PyFloat.gtb v va = true ->
  first_max key (pre ++ [k]) (length pre) k v.
Proof.
  intros (Hi & Ha & Hmax & Hfirst) Hk Hgt. unfold PyFloat.gtb in *.
  change SFltb with PyFloat.ltb in *.
  split; [by rewrite lookup_app_r, Nat.sub_diag|]. split; [done|]. split.
  - intros j b vb Hj Hb. apply lookup_app_Some in Hj as [Hj|[_ Hj]].
    + destruct (PyFloat.ltb v vb) eqn:E; [|done].
      pose proof (ltb_trans _ _ _ Hgt E) as Habs.
      by rewrite (Hmax j b vb Hj Hb) in Habs.
    + apply list_lookup_singleton_Some in Hj as [_ <-].
      assert (vb = v) as -> by congruence. apply ltb_irrefl.
  - intros j b vb Hlt Hj Hb. rewrite lookup_app_l in Hj by lia.
    destruct (PyFloat.leb v vb) eqn:E; [|done].
    pose proof (ltb_leb_trans _ _ _ Hgt E) as Habs.
    by rewrite (Hmax j b vb Hj Hb) in Habs.
Qed.

Lemma max_loop_first_max key ks : forall pre i best bv,
  (forall k, k ∈ ks -> is_Some (key k)) ->
  first_max key pre i best bv ->
  exists i' a va,
    max_loop key best (Some bv) ks = Ok a /\ first_max key (pre ++ ks) i' a va.
Proof.
  induction ks as [|k ks IH]; intros pre i best bv Hkeys Hfm.
  - exists i, best, bv. by rewrite app_nil_r.
  - destruct (Hkeys k) as [v Hv]; [by apply elem_of_cons; left|].
    assert (forall k', k' ∈ ks -> is_Some (key k')) as Hkeys'
      by (intros k' Hk'; apply Hkeys, elem_of_cons; by right).
    simpl. rewrite Hv. destruct Hfm as (Hi & Hbest & Hrest).
    assert (first_max key pre i best bv) as Hfm by (split; [|split]; done).
    simpl. rewrite (assoc_L (++) pre [k] ks : pre ++ k :: ks = (pre ++ [k]) ++ ks).
    destruct (PyFloat.gtb v bv) eqn:Hgt.
    + apply IH with (length pre); [done|].
      by apply first_max_replace with i best bv.
    + apply IH with i; [done|]. by apply first_max_keep with v.
Qed.

Lemma max_by_get_first_max (d : row) :
  d <> [] ->
  exists i a va, max_by_get d = Ok a /\ first_max (Row.get d) (Row.keys d) i a va.
Proof.
  intros Hne. unfold max_by_get.
  destruct (Row.keys d) as [|k ks] eqn:Hks.
  - destruct d; [done | discriminate].
  - assert (forall k', k' ∈ k :: ks -> is_Some (Row.get d k')) as Hall
      by (intros k' Hk'; apply get_Some_keys; by rewrite Hks).
    destruct (Hall k) as [v Hv]; [by apply elem_of_cons; left|].
    rewrite Hv.
    apply (max_loop_first_max (Row.get d) ks [k] 0%nat k v).
    + intros k' Hk'. apply Hall, elem_of_cons. by right.
    + by apply first_max_singleton.
Qed.



(** The tie of the witness is broken for the action stored first. *)
Example greedy_tie_example :
  snd (choose_move tied_ai board0 greedy) = Ok (from_uci "g8f6").
Proof. reflexivity. Qed.

(** ** [save_brain] and [load_brain] *)

Section PersistenceProperties.

Context {S : Storage}.

(** X6: [load_brain] returns normally, whatever the disk holds. *)
Theorem load_brain_never_raises (self : ChessAI) (d : disk) :
  snd (load_brain self d) = Ok tt.
Proof.
  unfold load_brain. destruct (path_exists d (filename self)); [|done].
  by destruct (load_try self d) as [self' [[]|e]].
Qed.

Lemma load_brain_missing_file (self : ChessAI) (d : disk) :
  path_exists d (filename self) = false -> load_brain self d = (self, Ok tt).
Proof. intros H. unfold load_brain. by rewrite H. Qed.



(** C4: when the brain file exists and reading or unpickling it raises,
    whatever the exception, [load_brain] returns normally and the value
    table is the empty dict. *)
Theorem load_failure_gives_empty_table (self : ChessAI) (d : disk) (e : exn) :
  path_exists d (filename self) = true ->
  (read d (filename self) = Raise e \/
   exists b, read d (filename self) = Ok b /\ pickle_loads b = Raise e) ->
  load_brain self d = (set_q_table ∅ self, Ok tt) /\
  q_table (fst (load_brain self d)) = ∅.
Proof.
  intros Hex Hfail. unfold load_brain, load_try. rewrite Hex.
  destruct Hfail as [Hr|(b & Hr & Hl)]; rewrite Hr; simpl; [done|].
  by rewrite Hl.
Qed.


End PersistenceProperties.



Lemma load_failure_gives_empty_table_witness :
  load_brain (S := MemDisk.storage) tied_ai garbage_disk
    = (set_q_table ∅ tied_ai, Ok tt).
Proof.
  apply (load_failure_gives_empty_table (S := MemDisk.storage)
           tied_ai garbage_disk (PickleError "invalid load key")).
  - reflexivity.
  - right. exists MemDisk.Garbage. split; reflexivity.
Defined.


(** ** [learn]: the update where it goes through *)

Lemma value_insert_eq self s r a :
  value (set_q_table (<[s := r]> (q_table self)) self) s a = Row.get r a.
Proof. unfold value. simpl. by rewrite lookup_insert_eq. Qed.

Lemma value_insert_ne self s r s' a :
  s <> s' ->
  value (set_q_table (<[s := r]> (q_table self)) self) s' a = value self s' a.
Proof. intros Hne. unfold value. simpl. by rewrite lookup_insert_ne. Qed.

Lemma learn_step_spec (self : ChessAI) (reward : pyfloat)
    (s a : string) (x old : pyfloat) :
  value self s a = Some old \/ (q_table self !! s = None /\ old = PyFloat.zero) ->
  exists self',
    learn_step self reward (s, a, x) = (self', Ok tt) /\
    value self' s a =
      Some (PyFloat.add old
              (PyFloat.mul (learning_rate self)
                 (PyFloat.sub (PyFloat.add x reward) old))) /\
    (forall s' a', (s', a') <> (s, a) -> value self' s' a' = value self s' a') /\
    (forall s', s' <> s -> q_table self' !! s' = q_table self !! s') /\
    learning_rate self' = learning_rate self /\
    discount_factor self' = discount_factor self.
Proof.
  intros [Hval|[Habs ->]].
  - unfold value in Hval. destruct (q_table self !! s) as [r|] eqn:Hs; [|done].
    simpl in Hval. eexists. split; [by apply learn_step_present|].
    split; [by rewrite value_insert_eq, get_setitem_eq|].
    split; [|split; [|done]].
    + intros s' a' Hne. destruct (decide (s = s')) as [<-|Hs'].
      * rewrite value_insert_eq. unfold value. rewrite Hs. simpl.
        apply get_setitem_ne. congruence.
      * by apply value_insert_ne.
    + intros s' Hs'. simpl. by apply lookup_insert_ne.
  - eexists. split; [by apply learn_step_fresh|].
    split; [rewrite value_insert_eq; simpl; by rewrite String.eqb_refl|].
    split; [|split; [|done]].
    + intros s' a' Hne. destruct (decide (s = s')) as [<-|Hs'].
      * rewrite value_insert_eq. unfold value. rewrite Habs. simpl.
        destruct (String.eqb_spec a a'); [congruence | done].
      * by apply value_insert_ne.
    + intros s' Hs'. simpl. by apply lookup_insert_ne.
Qed.

(** X1: one iteration of the loop, on a pair that has a value [old], or whose
    fingerprint has no row (then [old] is the [0.0] the iteration stores
    first): the pair's value becomes
    [old + learning_rate * ((step_reward + reward) - old)], every other
    pair keeps its value or its absence, and the rates are untouched. *)
Theorem learn_step_update (self : ChessAI) (reward : pyfloat)
    (s a : string) (x old : pyfloat) :
  value self s a = Some old \/ (q_table self !! s = None /\ old = PyFloat.zero) ->
  exists self',
    learn_step self reward (s, a, x) = (self', Ok tt) /\
    value self' s a =
      Some (PyFloat.add old
              (PyFloat.mul (learning_rate self)
                 (PyFloat.sub (PyFloat.add x reward) old))) /\
    (forall s' a', (s', a') <> (s, a) -> value self' s' a' = value self s' a') /\
    (forall s', s' <> s -> q_table self' !! s' = q_table self !! s') /\
    learning_rate self' = learning_rate self /\
    discount_factor self' = discount_factor self.
Proof. apply learn_step_spec. Qed.

Lemma learn_step_update_witness :
  exists self',
    learn_step fresh_ai PyFloat.one ("s", "b", PyFloat.lit_minus_0_2) = (self', Ok tt) /\
    value self' "s" "b" = Some PyFloat.lit_0_4.
Proof.
  destruct (learn_step_update fresh_ai PyFloat.one "s" "b"
              PyFloat.lit_minus_0_2 PyFloat.zero)
    as (self' & Hstep & Hval & _).
  - right. split; reflexivity.
  - exists self'. split; [exact Hstep|]. rewrite Hval. reflexivity.
Defined.



(** ** The table only grows *)

Lemma table_le_refl q : table_le q q.
Proof. intros s r a Hs Ha. eauto. Qed.

Lemma table_le_trans q1 q2 q3 : table_le q1 q2 -> table_le q2 q3 -> table_le q1 q3.
Proof.
  intros H12 H23 s r a Hs Ha.
  destruct (H12 s r a Hs Ha) as (r' & Hs' & Ha'). eauto.
Qed.

Lemma table_le_insert_fresh q s r : q !! s = None -> table_le q (<[s := r]> q).
Proof.
  intros Habs s' r' a Hs' Ha. exists r'. split; [|done].
  rewrite lookup_insert_ne; [done | congruence].
Qed.

Lemma table_le_setitem q s r a v :
  q !! s = Some r -> table_le q (<[s := Row.setitem r a v]> q).
Proof.
  intros Hs s' r' a' Hs' Ha'. destruct (decide (s = s')) as [<-|Hne].
  - exists (Row.setitem r a v). rewrite lookup_insert_eq. split; [done|].
    apply keys_setitem_elem. right. congruence.
  - exists r'. by rewrite lookup_insert_ne.
Qed.

Lemma learn_step_grows self reward entry :
  table_le (q_table self) (q_table (fst (learn_step self reward entry))).
Proof.
  destruct entry as [[s a] x].
  destruct (q_table self !! s) as [r|] eqn:Hs.
  - destruct (Row.get r a) as [old|] eqn:Ha.
    + rewrite (learn_step_present _ _ _ _ _ _ _ Hs Ha). simpl.
      by apply table_le_setitem.
    + rewrite (learn_step_missing_action _ _ _ _ _ _ Hs Ha). apply table_le_refl.
  - rewrite (learn_step_fresh _ _ _ _ _ Hs). simpl. by apply table_le_insert_fresh.
Qed.

Lemma learn_loop_grows entries : forall self reward,
  table_le (q_table self) (q_table (fst (learn_loop self reward entries))).
Proof.
  induction entries as [|entry rest IH]; intros self reward; simpl.
  - apply table_le_refl.
  - pose proof (learn_step_grows self reward entry) as Hstep.
    destruct (learn_step self reward entry) as [self' [[]|e]]; simpl in *; [|done].
    eapply table_le_trans; [exact Hstep | apply IH].
Qed.

(** X3: [learn] deletes nothing: whether it returns or raises, every
    (fingerprint, action) pair of the table before is a pair of the table
    after. *)
Theorem learn_grows (self : ChessAI) (history : list (string * string * pyfloat))
    (final_reward : number) :
  table_le (q_table self) (q_table (fst (learn self history final_reward))).
Proof. apply learn_loop_grows. Qed.

(** X4: [choose_move] deletes nothing either. *)
Theorem choose_move_grows (self : ChessAI) (board : Board) (rnd : Random) :
  table_le (q_table self) (q_table (fst (choose_move self board rnd))).
Proof.
  rewrite choose_move_fst.
  destruct (q_table self !! fen board) as [r|] eqn:E.
  - rewrite (init_row_present _ _ _ E). apply table_le_refl.
  - rewrite (init_row_absent _ _ E). by apply table_le_insert_fresh.
Qed.

(** ** The greedy move on a new row *)

Lemma store_all_head v ks k0 v0 (d : row) :
  exists d', store_all v ks ((k0, v0) :: d) = (k0, if decide (k0 ∈ ks) then v else v0) :: d'.
Proof.
  revert v0 d. induction ks as [|k ks IH]; intros v0 d.
  - exists d. by rewrite decide_False by apply not_elem_of_nil.
  - rewrite store_all_cons. simpl.
    destruct (String.eqb_spec k0 k) as [<-|Hne].
    + destruct (IH v d) as [d' ->]. exists d'.
      rewrite (decide_True (P := k0 ∈ k0 :: ks)) by (apply elem_of_cons; by left).
      by destruct (decide (k0 ∈ ks)).
    + destruct (IH v0 (Row.setitem d k v)) as [d' ->]. exists d'.
      destruct (decide (k0 ∈ ks)) as [Hin|Hin].
      * rewrite decide_True; [done | apply elem_of_cons; by right].
      * rewrite decide_False; [done|]. rewrite elem_of_cons. tauto.
Qed.

Lemma of_keys_head k ks v : exists d', Row.of_keys (k :: ks) v = (k, v) :: d'.
Proof.
  rewrite of_keys_store_all, store_all_cons. simpl.
  destruct (store_all_head v ks k v []) as [d' ->]. exists d'.
  by destruct (decide (k ∈ ks)).
Qed.

Lemma leb_zero_zero : PyFloat.leb PyFloat.zero PyFloat.zero = true.
Proof. reflexivity. Qed.

(** X5: on a fingerprint the table did not have, the greedy branch
    returns the first legal move: all values of the new row tie at
    [0.0]. *)
Theorem greedy_new_row_first_legal_move
    (self : ChessAI) (board : Board) (rnd : Random) (m : Move) (ms : list Move) :
  q_table self !! fen board = None ->
  legal_moves board = m :: ms ->
  PyFloat.ltb (random rnd) (epsilon self) = false ->
  snd (choose_move self board rnd) = Ok m.
Proof.
  intros Habs Hlegal Hcoin. unfold choose_move.
  rewrite init_row_epsilon, Hcoin. unfold get_state.
  rewrite (init_row_absent _ _ Habs), lookup_insert_eq, Hlegal.
  set (r := Row.of_keys (map uci (m :: ms)) PyFloat.zero).
  destruct (of_keys_head (uci m) (map uci ms) PyFloat.zero) as [d' Hr].
  change (Row.of_keys (uci m :: map uci ms) PyFloat.zero) with r in Hr.
  assert (forall b vb, Row.get r b = Some vb -> vb = PyFloat.zero) as Hzero.
  { intros b vb Hb. unfold r in Hb. rewrite of_keys_get in Hb.
    case_decide; congruence. }
  destruct (max_by_get_first_max r) as (i & a & va & -> & Hi & Ha & _ & Hfirst).
  { rewrite Hr. discriminate. }
  simpl. f_equal.
  assert (i = 0)%nat as ->.
  { destruct i as [|i]; [done|]. exfalso.
    pose proof (Hfirst 0%nat (uci m) PyFloat.zero) as H0.
    rewrite (Hzero a va Ha), leb_zero_zero in H0.
    enough (true = false) by discriminate. apply H0; [lia | by rewrite Hr |].
    rewrite Hr. simpl. by rewrite String.eqb_refl. }
  rewrite Hr in Hi. simpl in Hi. injection Hi as <-. by destruct m.
Qed.

Lemma greedy_new_row_first_legal_move_witness :
  snd (choose_move fresh_ai board0 greedy) = Ok (from_uci "e7e5").
Proof.
  apply (greedy_new_row_first_legal_move fresh_ai board0 greedy
           (from_uci "e7e5") [from_uci "g8f6"; from_uci "b8c6"]); reflexivity.
Defined.

(** ** [learn]: what it touches, when it returns, what it raises *)

Lemma rev_reverse {A} (l : list A) : rev l = reverse l.
Proof.
  induction l as [|x l IH]; [done|]. simpl. by rewrite IH, reverse_cons.
Qed.

Lemma learn_step_cases self reward s a x :
  (exists old,
     value self s a = Some old /\
     learn_step self reward (s, a, x) =
       (set_q_table
          (<[s := Row.setitem (default [] (q_table self !! s)) a
                    (blend (learning_rate self) old (PyFloat.add x reward))]>
             (q_table self)) self, Ok tt)) \/
  (q_table self !! s = None /\
   learn_step self reward (s, a, x) =
     (set_q_table
        (<[s := [(a, blend (learning_rate self) PyFloat.zero (PyFloat.add x reward))]]>
           (q_table self)) self, Ok tt)) \/
  (is_Some (q_table self !! s) /\ value self s a = None /\
   learn_step self reward (s, a, x) = (self, Raise (KeyError a))).
Proof.
  unfold value. destruct (q_table self !! s) as [r|] eqn:Hs; simpl.
  - destruct (Row.get r a) as [old|] eqn:Ha.
    + left. exists old. split; [done|]. by apply learn_step_present.
    + right. right. split; [eauto|]. split; [done|].
      by apply learn_step_missing_action with r.
  - right. left. split; [done|]. by apply learn_step_fresh.
Qed.


Lemma learn_step_other self reward s a x s' a' :
  (s', a') <> (s, a) ->
  value (fst (learn_step self reward (s, a, x))) s' a' = value self s' a'.
Proof.
  intros Hne.
  destruct (learn_step_cases self reward s a x)
    as [(old & Hold & ->)|[(Habs & ->)|(_ & _ & ->)]]; simpl; [| |done].
  - destruct (decide (s = s')) as [<-|Hs]; [|by apply value_insert_ne].
    rewrite value_insert_eq. unfold value in *.
    destruct (q_table self !! s) as [r|]; [|done]. simpl.
    apply get_setitem_ne. congruence.
  - destruct (decide (s = s')) as [<-|Hs]; [|by apply value_insert_ne].
    rewrite value_insert_eq. unfold value. rewrite Habs. simpl.
    destruct (String.eqb_spec a a'); [congruence | done].
Qed.

Lemma learn_step_same self reward s a x old :
  value self s a = Some old ->
  learn_step self reward (s, a, x) =
    (fst (learn_step self reward (s, a, x)), Ok tt) /\
  value (fst (learn_step self reward (s, a, x))) s a =
    Some (blend (learning_rate self) old (PyFloat.add x reward)).
Proof.
  intros Hold.
  destruct (learn_step_cases self reward s a x)
    as [(old' & Hold' & ->)|[(Habs & _)|(_ & Hnone & _)]].
  - assert (old' = old) as -> by congruence. simpl. split; [done|].
    by rewrite value_insert_eq, get_setitem_eq.
  - unfold value in Hold. by rewrite Habs in Hold.
  - congruence.
Qed.

Lemma learn_loop_other entries : forall self reward s' a',
  (s', a') ∉ map pair_of entries ->
  value (fst (learn_loop self reward entries)) s' a' = value self s' a'.
Proof.
  induction entries as [|[[s a] x] rest IH]; intros self reward s' a' Hnot; [done|].
  simpl in Hnot. apply not_elem_of_cons in Hnot as [Hne Hnot].
  pose proof (learn_step_other self reward s a x s' a' Hne) as Hstep.
  cbn [learn_loop].
  destruct (learn_step self reward (s, a, x)) as [self1 [[]|e]]; cbn [fst] in *.
  - by rewrite IH.
  - done.
Qed.

(** X7: [learn] changes the values of the pairs in [history] and of no
    other pair, whether it returns or raises: a (fingerprint, action) pair
    that no entry names has the value, or the absence, it had before. *)
Theorem learn_touches_history_only (self : ChessAI)
    (history : list (string * string * pyfloat)) (R : number) (s a : string) :
  (s, a) ∉ map pair_of history ->
  value (fst (learn self history R)) s a = value self s a.
Proof.
  intros Hnot. unfold learn. apply learn_loop_other.
  rewrite rev_reverse. intros Hin. apply Hnot.
  apply list_elem_of_fmap in Hin as (e & -> & He).
  apply list_elem_of_fmap. exists e. split; [done|]. by apply elem_of_reverse.
Qed.

Lemma learn_touches_history_only_witness :
  value (fst (learn tied_ai [(fen board0, "g8f6", PyFloat.lit_0_1)] (Float PyFloat.one)))
    (fen board0) "b8c6" = Some PyFloat.lit_0_3.
Proof.
  rewrite (learn_touches_history_only tied_ai); [reflexivity|].
  simpl. intros H. apply list_elem_of_singleton in H. discriminate.
Defined.

Lemma learn_loop_present entries : forall self reward,
  (forall e, e ∈ entries -> is_Some (value self (pair_of e).1 (pair_of e).2)) ->
  snd (learn_loop self reward entries) = Ok tt.
Proof.
  induction entries as [|[[s a] x] rest IH]; intros self reward Hall; [done|].
  destruct (Hall (s, a, x)) as [old Hold]; [by apply elem_of_cons; left|].
  simpl in Hold.
  destruct (learn_step_same self reward s a x old Hold) as [Hstep Hval].
  pose proof (learn_step_other self reward s a x) as Hother.
  set (self1 := fst (learn_step self reward (s, a, x))) in *.
  cbn [learn_loop]. rewrite Hstep. apply (IH self1).
  intros [[s' a'] x'] He. cbn [pair_of fst snd].
  destruct (decide ((s', a') = (s, a))) as [[= -> ->]|Hne].
  - rewrite Hval. eauto.
  - rewrite Hother by done.
    apply (Hall (s', a', x')). apply elem_of_cons. by right.
Qed.






(** ** [learn]: the values after a whole history *)





(** ** [choose_move]: what it returns and when it raises *)

Lemma choice_elem {A} (rnd : Random) (seq : list A) :
  seq <> [] -> exists x, choice rnd seq = Ok x /\ x ∈ seq.
Proof.
  destruct seq as [|x0 seq]; [done|]. intros _. unfold choice.
  eexists. split; [reflexivity|].
  apply list_elem_of_In, nth_In. apply Nat.mod_upper_bound. simpl. lia.
Qed.

(** X11: when the coin says explore, [choose_move] returns one of the
    legal moves it was given, whatever the table holds for the
    fingerprint. *)
Theorem choose_move_explores_legal_moves
    (self : ChessAI) (board : Board) (rnd : Random) :
  PyFloat.ltb (random rnd) (epsilon self) = true ->
  legal_moves board <> [] ->
  exists m, snd (choose_move self board rnd) = Ok m /\ m ∈ legal_moves board.
Proof.
  intros Hcoin Hlegal. unfold choose_move. rewrite init_row_epsilon, Hcoin.
  by apply choice_elem.
Qed.

Lemma choose_move_explores_legal_moves_witness :
  exists m, snd (choose_move tied_ai board0 exploring) = Ok m /\
            m ∈ legal_moves board0.
Proof.
  apply (choose_move_explores_legal_moves tied_ai board0 exploring).
  - reflexivity.
  - discriminate.
Defined.

Lemma init_row_matches self board :
  (forall r, q_table self !! fen board = Some r -> row_matches board r) ->
  exists r, q_table (init_row self board) !! fen board = Some r /\
            row_matches board r.
Proof.
  intros Hrows. destruct (q_table self !! fen board) as [r|] eqn:E.
  - exists r. rewrite (init_row_present _ _ _ E). auto.
  - eexists. rewrite (init_row_absent _ _ E), lookup_insert_eq.
    split; [reflexivity|]. intros a. apply of_keys_elem.
Qed.

(** X12: on a table whose row for the fingerprint, if there is one, has
    exactly the legal actions as keys, [choose_move] with at least one
    legal move never raises: either branch returns a legal move, and the
    table it leaves has a value for that move. *)
Theorem choose_move_returns_legal_move
    (self : ChessAI) (board : Board) (rnd : Random) :
  legal_moves board <> [] ->
  (forall r, q_table self !! fen board = Some r -> row_matches board r) ->
  exists m,
    snd (choose_move self board rnd) = Ok m /\
    m ∈ legal_moves board /\
    is_Some (value (fst (choose_move self board rnd)) (fen board) (uci m)).
Proof.
  intros Hlegal Hrows. rewrite choose_move_fst.
  destruct (init_row_matches self board Hrows) as (r & Hr & Hmatch).
  assert (forall m, m ∈ legal_moves board ->
                    is_Some (value (init_row self board) (fen board) (uci m)))
    as Hvalue.
  { intros m Hm. unfold value. rewrite Hr. simpl. apply get_Some_keys.
    apply Hmatch, list_elem_of_fmap. eauto. }
  unfold choose_move.
  destruct (PyFloat.ltb (random rnd) (epsilon (init_row self board))).
  - destruct (choice_elem rnd (legal_moves board) Hlegal) as (m & Hc & Hm).
    exists m. simpl. auto.
  - unfold get_state. rewrite Hr.
    destruct (max_by_get_first_max r) as (i & a & va & -> & Hi & _).
    { intros ->. destruct (legal_moves board) as [|m0 ms] eqn:El; [done|].
      assert (uci m0 ∈ Row.keys []) as Hin
        by (apply Hmatch; rewrite El; simpl; apply elem_of_cons; by left).
      by apply elem_of_nil in Hin. }
    apply list_elem_of_lookup_2, Hmatch, list_elem_of_fmap in Hi as (m & -> & Hm).
    exists m. simpl. split; [by destruct m | auto].
Qed.

Lemma choose_move_returns_legal_move_witness :
  exists m,
    snd (choose_move fresh_ai board0 greedy) = Ok m /\
    m ∈ legal_moves board0 /\
    is_Some (value (fst (choose_move fresh_ai board0 greedy)) (fen board0) (uci m)).
Proof.
  apply (choose_move_returns_legal_move fresh_ai board0 greedy).
  - discriminate.
  - intros r Hr. discriminate Hr.
Defined.

(** X13: [choose_move] on a new fingerprint with no legal move raises
    ([IndexError] from [random.choice] when exploring, [ValueError] from
    [max] otherwise), but has already stored an empty row; from then on
    every greedy call on that fingerprint raises [ValueError], even when
    it is given legal moves. *)
Theorem choose_move_without_legal_moves
    (self : ChessAI) (board : Board) (rnd : Random) :
  legal_moves board = [] ->
  q_table self !! fen board = None ->
  let self' := fst (choose_move self board rnd) in
  snd (choose_move self board rnd) =
    Raise (if PyFloat.ltb (random rnd) (epsilon self) then IndexError else ValueError) /\
  q_table self' !! fen board = Some ([] : row) /\
  forall board' rnd',
    fen board' = fen board ->
    PyFloat.ltb (random rnd') (epsilon self) = false ->
    snd (choose_move self' board' rnd') = Raise ValueError.
Proof.
  intros Hlegal Habs. cbn zeta. rewrite choose_move_fst.
  assert (q_table (init_row self board) !! fen board = Some ([] : row)) as Hrow.
  { rewrite (init_row_absent _ _ Habs), lookup_insert_eq. by rewrite Hlegal. }
  split; [|split; [done|]].
  - unfold choose_move. rewrite init_row_epsilon. unfold get_state.
    destruct (PyFloat.ltb (random rnd) (epsilon self)).
    + by rewrite Hlegal.
    + by rewrite Hrow.
  - intros board' rnd' Hfen Hcoin. unfold choose_move. unfold get_state.
    rewrite <- Hfen in Hrow.
    rewrite (init_row_present _ _ _ Hrow), init_row_epsilon, Hcoin.
    by rewrite Hrow.
Qed.

Lemma choose_move_without_legal_moves_witness :
  snd (choose_move fresh_ai dead_board exploring) = Raise IndexError /\
  snd (choose_move (fst (choose_move fresh_ai dead_board exploring))
         dead_board_with_move greedy) = Raise ValueError.
Proof.
  destruct (choose_move_without_legal_moves fresh_ai dead_board exploring)
    as (Hraise & _ & Hlater); [reflexivity | reflexivity |].
  split; [exact Hraise|].
  apply Hlater; reflexivity.
Defined.

(** ** [get_material_score] *)

Lemma material_fold self piece_at squares acc :
  fold_left
    (fun score square =>
       match piece_at square with
       | Some piece =>
           let val := piece_values self (kind piece) in
           match color piece with
           | BLACK => score + val
           | WHITE => score - val
           end
       | None => score
       end)%Z
    squares acc
  = (acc + total (fun sq => contribution self (piece_at sq)) squares)%Z.
Proof.
  revert acc. induction squares as [|sq squares IH]; intros acc; simpl; [lia|].
  rewrite IH. unfold contribution.
  destruct (piece_at sq) as [[k []]|]; simpl; lia.
Qed.

Lemma material_total self piece_at :
  get_material_score self piece_at
  = total (fun sq => contribution self (piece_at sq)) SQUARES.
Proof. unfold get_material_score. rewrite material_fold. lia. Qed.

Lemma total_ext f g squares :
  (forall sq, sq ∈ squares -> f sq = g sq) -> total f squares = total g squares.
Proof.
  induction squares as [|sq squares IH]; intros H; simpl; [done|].
  rewrite H by (apply elem_of_cons; by left).
  rewrite IH; [done|]. intros sq' Hsq'. apply H, elem_of_cons. by right.
Qed.

Lemma total_minus f g squares :
  total (fun sq => f sq - g sq)%Z squares = (total f squares - total g squares)%Z.
Proof. induction squares as [|sq squares IH]; simpl; lia. Qed.

Lemma total_opp f squares :
  total (fun sq => - f sq)%Z squares = (- total f squares)%Z.
Proof. induction squares as [|sq squares IH]; simpl; lia. Qed.

Lemma total_bounds f squares lo hi :
  (forall sq, lo <= f sq <= hi)%Z ->
  (Z.of_nat (length squares) * lo <= total f squares
   <= Z.of_nat (length squares) * hi)%Z.
Proof.
  intros H. induction squares as [|sq squares IH]; [simpl; lia|].
  specialize (H sq). cbn [total foldr length]. fold (total f squares). lia.
Qed.

(** The total changes by what changes on one square. *)
Lemma total_one_square f g squares a :
  NoDup squares -> a ∈ squares ->
  (forall sq, sq <> a -> f sq = g sq) ->
  (total g squares = total f squares + (g a - f a))%Z.
Proof.
  induction squares as [|sq squares IH]; intros Hnd Ha Hsame.
  - by apply elem_of_nil in Ha.
  - apply NoDup_cons in Hnd as [Hsq Hnd]. simpl.
    destruct (decide (sq = a)) as [->|Hne].
    + rewrite (total_ext f g squares); [lia|].
      intros sq' Hsq'. apply Hsame. intros ->. contradiction.
    + apply elem_of_cons in Ha as [->|Ha]; [done|].
      rewrite IH by done. rewrite (Hsame sq) by done. lia.
Qed.

Lemma SQUARES_NoDup : NoDup SQUARES.
Proof. apply NoDup_seq. Qed.

Lemma SQUARES_elem sq : sq ∈ SQUARES <-> (sq < 64)%nat.
Proof. unfold SQUARES. rewrite elem_of_seq. lia. Qed.

(** X14: the material score is the total value of the black pieces on
    the 64 squares minus the total value of the white ones. *)
Theorem material_score_is_black_minus_white
    (self : ChessAI) (piece_at : nat -> option Piece) :
  get_material_score self piece_at
  = (total (fun sq => side_value self BLACK (piece_at sq)) SQUARES
     - total (fun sq => side_value self WHITE (piece_at sq)) SQUARES)%Z.
Proof.
  rewrite material_total, <- total_minus. apply total_ext.
  intros sq _. unfold contribution, side_value.
  destruct (piece_at sq) as [[k []]|]; simpl; lia.
Qed.

(** X15: exchanging the colours of all pieces negates the score. *)
Theorem material_score_swap_colors
    (self : ChessAI) (piece_at : nat -> option Piece) :
  get_material_score self (fun sq => swap_color <$> piece_at sq)
  = (- get_material_score self piece_at)%Z.
Proof.
  rewrite !material_total, <- total_opp. apply total_ext.
  intros sq _. unfold contribution.
  destruct (piece_at sq) as [[k []]|]; simpl; lia.
Qed.

(** X16: a black piece that goes from square [a] to another square [b]
    and nothing else changing: the score rises by the value of the white
    piece that stood on [b], stays as it is when [b] was empty, and falls
    by the value of a black piece that stood there. *)
Theorem material_score_after_black_move
    (self : ChessAI) (before after : nat -> option Piece) (a b : nat) (p : Piece) :
  (a < 64)%nat -> (b < 64)%nat -> a <> b ->
  before a = Some p -> color p = BLACK ->
  after a = None -> after b = Some p ->
  (forall sq, sq <> a -> sq <> b -> after sq = before sq) ->
  get_material_score self after
  = (get_material_score self before + side_value self WHITE (before b)
     - side_value self BLACK (before b))%Z.
Proof.
  intros Ha Hb Hab Hfrom Hblack Hleft Hto Hrest.
  rewrite !material_total.
  set (mid := fun sq => if decide (sq = a) then None else before sq).
  rewrite (total_one_square (fun sq => contribution self (mid sq))
             (fun sq => contribution self (after sq)) SQUARES b);
    [| apply SQUARES_NoDup | by apply SQUARES_elem |].
  - rewrite (total_one_square (fun sq => contribution self (before sq))
               (fun sq => contribution self (mid sq)) SQUARES a);
      [| apply SQUARES_NoDup | by apply SQUARES_elem |].
    + unfold mid. rewrite decide_True by done.
      rewrite decide_False by done.
      rewrite Hfrom, Hto. unfold contribution, side_value. rewrite Hblack.
      destruct (before b) as [[k []]|]; simpl; lia.
    + intros sq Hsq. unfold mid. by rewrite decide_False.
  - intros sq Hsq. unfold mid. case_decide as Hsqa.
    + subst sq. by rewrite Hleft.
    + by rewrite Hrest.
Qed.

Lemma material_score_after_black_move_witness :
  get_material_score fresh_ai pawn_has_taken
  = (get_material_score fresh_ai pawn_takes_knight
     + side_value fresh_ai WHITE (pawn_takes_knight 35%nat)
     - side_value fresh_ai BLACK (pawn_takes_knight 35%nat))%Z.
Proof.
  apply (material_score_after_black_move fresh_ai pawn_takes_knight pawn_has_taken
           44%nat 35%nat {| kind := PAWN; color := BLACK |});
    try reflexivity; try lia.
  intros sq H44 H35. unfold pawn_has_taken, pawn_takes_knight.
  destruct (Nat.eqb_spec sq 35); [contradiction|].
  destruct (Nat.eqb_spec sq 44); [contradiction|]. reflexivity.
Defined.

(** X17: with piece values between [0] and [v], the score lies between
    [-64·v] and [64·v]; with the values of [__init__], between [-576] and
    [576]. *)
Theorem material_score_bounds
    (self : ChessAI) (piece_at : nat -> option Piece) (v : Z) :
  (forall k, 0 <= piece_values self k <= v)%Z ->
  (- (64 * v) <= get_material_score self piece_at <= 64 * v)%Z.
Proof.
  intros Hv. rewrite material_total.
  pose proof (total_bounds (fun sq => contribution self (piece_at sq)) SQUARES
                (- v)%Z v) as Hb.
  change (Z.of_nat (length SQUARES)) with 64%Z in Hb.
  enough (forall sq, (- v <= contribution self (piece_at sq) <= v)%Z)
    as Hc by (specialize (Hb Hc); lia).
  intros sq. unfold contribution.
  destruct (piece_at sq) as [[k c]|]; simpl.
  - specialize (Hv k). destruct c; lia.
  - specialize (Hv PAWN). lia.
Qed.

Lemma material_score_bounds_witness :
  (- (64 * 9)
   <= get_material_score fresh_ai (fun _ => Some {| kind := QUEEN; color := BLACK |})
   <= 64 * 9)%Z.
Proof.
  apply (material_score_bounds fresh_ai _ 9).
  intros []; simpl; lia.
Defined.

(** ** The step reward *)

Lemma deltas_elem (z : Z) : (-1152 <= z <= 1152)%Z -> In z deltas.
Proof.
  intros Hz. unfold deltas. apply in_map_iff.
  exists (Z.to_nat (z + 1152)). split; [lia|].
  apply in_seq. lia.
Qed.

Lemma sign_agrees_deltas : forallb sign_agrees deltas = true.
Proof. vm_compute. reflexivity. Qed.

Lemma step_reward_of_delta old new :
  step_reward_of old new = step_reward_of 0 (new - old).
Proof. unfold step_reward_of. by rewrite Z.sub_0_r. Qed.

(** X18: for two scores that differ by at most 1152 (any two boards
    under the piece values of [__init__]), the step reward
    [(new_score - old_score) * 0.1] is greater than [0.0] when the score
    rose, less than [0.0] when it fell, and [0.0] when it did not move. *)
Theorem step_reward_sign (old_score new_score : Z) :
  (-1152 <= new_score - old_score <= 1152)%Z ->
  ((old_score < new_score)%Z ->
   PyFloat.ltb PyFloat.zero (step_reward_of old_score new_score) = true) /\
  ((new_score < old_score)%Z ->
   PyFloat.ltb (step_reward_of old_score new_score) PyFloat.zero = true) /\
  (new_score = old_score -> step_reward_of old_score new_score = PyFloat.zero).
Proof.
  intros Hrange. rewrite step_reward_of_delta.
  pose proof (proj1 (forallb_forall sign_agrees deltas) sign_agrees_deltas
                (new_score - old_score)%Z (deltas_elem _ Hrange)) as Hs.
  unfold sign_agrees in Hs.
  destruct (Z.compare_spec (new_score - old_score) 0) as [Heq|Hlt|Hgt].
  - split; [lia|]. split; [lia|]. intros _.
    cbv zeta in Hs. by destruct (step_reward_of 0 (new_score - old_score)) as [[]|[]| |].
  - split; [lia|]. split; [done|]. lia.
  - split; [done|]. split; lia.
Qed.

Lemma step_reward_sign_witness :
  PyFloat.ltb PyFloat.zero (step_reward_of 0 3) = true.
Proof.
  destruct (step_reward_sign 0 3) as [Hup _]; [lia|].
  apply Hup. lia.
Defined.

(** ** [__init__] *)

Section InitProperties.

Context {S : Storage}.



End InitProperties.


(** ** [play_game]: the history is learnable *)

Lemma choice_Ok_elem {A} (rnd : Random) (seq : list A) x :
  choice rnd seq = Ok x -> x ∈ seq.
Proof.
  intros Hc. destruct seq as [|x0 seq]; [discriminate|].
  destruct (choice_elem rnd (x0 :: seq)) as (y & Hy & Hin); [done|].
  congruence.
Qed.

Lemma max_by_get_Ok_elem (r : row) a : max_by_get r = Ok a -> a ∈ Row.keys r.
Proof.
  intros Hmax. destruct r as [|kv r]; [discriminate|].
  destruct (max_by_get_first_max (kv :: r)) as (i & a' & va & Hmax' & Hi & _);
    [done|].
  assert (a' = a) as -> by congruence. by apply list_elem_of_lookup_2 with i.
Qed.

Lemma choose_move_Ok_known self board rnd m :
  (forall r, q_table self !! fen board = Some r -> row_matches board r) ->
  snd (choose_move self board rnd) = Ok m ->
  is_Some (value (init_row self board) (fen board) (uci m)).
Proof.
  intros Hrows Hok.
  destruct (init_row_matches self board Hrows) as (r & Hr & Hmatch).
  unfold value. rewrite Hr. simpl. apply get_Some_keys.
  unfold choose_move in Hok.
  destruct (PyFloat.ltb (random rnd) (epsilon (init_row self board))).
  - simpl in Hok. apply choice_Ok_elem in Hok.
    apply Hmatch, list_elem_of_fmap. eauto.
  - unfold get_state in Hok. rewrite Hr in Hok. simpl in Hok.
    destruct (max_by_get r) as [a|] eqn:Hmax; [|discriminate].
    simpl in Hok. injection Hok as <-. simpl. by apply max_by_get_Ok_elem.
Qed.

Lemma init_row_known self board s a :
  is_Some (value self s a) -> value (init_row self board) s a = value self s a.
Proof.
  intros Hsome. destruct (q_table self !! fen board) as [r|] eqn:E.
  - by rewrite (init_row_present _ _ _ E).
  - unfold value. rewrite (init_row_absent _ _ E).
    rewrite lookup_insert_ne; [done|].
    intros <-. unfold value in Hsome. rewrite E in Hsome.
    by destruct Hsome.
Qed.

Section GameProperties.

Context {R : Rules} {S : Storage}.

Lemma init_row_consistent (self : ChessAI) (p : position) :
  fen_decides_moves -> table_consistent (q_table self) ->
  table_consistent (q_table (init_row self (view p))).
Proof.
  intros Hfen Hcons. destruct (q_table self !! fen (view p)) as [r|] eqn:E.
  - by rewrite (init_row_present _ _ _ E).
  - rewrite (init_row_absent _ _ E). intros p' r' Hr'.
    destruct (decide (fen (view p) = fen (view p'))) as [Heq|Hne].
    + rewrite Heq, lookup_insert_eq in Hr'. injection Hr' as <-.
      intros a. rewrite of_keys_elem. by rewrite (Hfen p p' Heq).
    + rewrite lookup_insert_ne in Hr' by done. by apply Hcons.
Qed.

Lemma play_turn_invariant (g : Game) (line : string) (rnd : Random) :
  fen_decides_moves ->
  table_consistent (q_table (ai g)) -> history_known (ai g) (history g) ->
  table_consistent (q_table (ai (fst (play_turn g line rnd)))) /\
  history_known (ai (fst (play_turn g line rnd))) (history (fst (play_turn g line rnd))).
Proof.
  intros Hfen Hcons Hknown. unfold play_turn.
  destruct (turn (board g)).
  - by destruct (parse_san (board g) line).
  - pose proof (choose_move_fst (ai g) (view (board g)) rnd) as Hfst.
    pose proof (choose_move_Ok_known (ai g) (view (board g)) rnd) as Hnew.
    destruct (choose_move (ai g) (view (board g)) rnd) as [ai' [m|e]];
      simpl in Hfst; subst ai'; simpl.
    + split; [by apply init_row_consistent|].
      intros s a x Hin. apply elem_of_app in Hin as [Hin|Hin].
      * rewrite init_row_known by eauto. eauto.
      * apply list_elem_of_singleton in Hin as [= -> -> ->].
        apply Hnew; [|done]. intros r Hr. by apply (Hcons (board g)).
    + split; [by apply init_row_consistent|].
      intros s a x Hin. rewrite init_row_known by eauto. eauto.
Qed.

Lemma play_loop_invariant (events : list (string * Random)) : forall g : Game,
  fen_decides_moves ->
  table_consistent (q_table (ai g)) -> history_known (ai g) (history g) ->
  table_consistent (q_table (ai (fst (play_loop g events)))) /\
  history_known (ai (fst (play_loop g events))) (history (fst (play_loop g events))).
Proof.
  induction events as [|[line rnd] events IH]; intros g Hfen Hcons Hknown; [done|].
  cbn [play_loop]. destruct (is_game_over (board g)); [done|].
  destruct (play_turn_invariant g line rnd Hfen Hcons Hknown) as [Hcons' Hknown'].
  destruct (play_turn g line rnd) as [g' [[]|e]]; simpl in *; [|done].
  by apply IH.
Qed.

(** X21: [play_game] never ends in an exception of [learn].  When
    positions with the same fingerprint have the same legal moves, and
    every row of the table the learner starts with has exactly the legal
    actions of its position (an empty table does), each pair the loop
    appends to the history has a value in the table, so the update of
    line 64 finds it. *)
Theorem play_game_learn_returns (d : disk) (events : list (string * Random)) :
  fen_decides_moves ->
  table_consistent (q_table (fst (init "chess_brain_v2.pkl" d))) ->
  forall self e, play_game d events <> LearnRaised self e.
Proof.
  intros Hfen Hcons self e. unfold play_game.
  set (g0 := {| board := start; history := [];
                ai := fst (init "chess_brain_v2.pkl" d) |}).
  destruct (play_loop_invariant events g0 Hfen Hcons) as [_ Hknown].
  { intros s a x Hin. by apply elem_of_nil in Hin. }
  destruct (play_loop g0 events) as [g [[]|e']]; simpl in Hknown; [|done].
  destruct (is_game_over (board g)); [|done].
  unfold finish.
  pose proof (learn_loop_present (rev (history g)) (ai g)
                (to_float (final_reward (result_of (board g))))) as Hlearn.
  unfold learn.
  destruct (learn_loop (ai g) _ (rev (history g))) as [self' [[]|e']];
    [done|].
  simpl in Hlearn. discriminate Hlearn.
  intros [[s a] x] Hin. apply (Hknown s a x).
  apply elem_of_reverse. by rewrite <- rev_reverse.
Qed.

End GameProperties.

Lemma toy_fen_decides_moves : fen_decides_moves (R := ToyRules.rules).
Proof. intros p1 p2 _. reflexivity. Qed.

Lemma play_game_learn_returns_witness :
  play_game (R := ToyRules.rules) (S := MemDisk.storage) empty_disk toy_events
  <> LearnRaised fresh_ai (KeyError "e7e5").
Proof.
  apply (play_game_learn_returns (R := ToyRules.rules) (S := MemDisk.storage)
           empty_disk toy_events toy_fen_decides_moves).
  intros p r Hr. discriminate Hr.
Defined.

(** ** [play_game]: what is saved is what the next session loads *)




Section SessionProperties.

Context {R : Rules} {S : Storage}.






End SessionProperties.

